(** * A shallow embedding of the blog and gallery routes of src/server.js

    The express handlers are modelled as functions in a small state monad
    over a [world] holding the two MongoDB collections, the assets held by
    the Cloudinary media host and the log of external calls issued.  The
    outcome of every external call that can fail (a rejected promise) is
    read from an environment [env] describing the request's surroundings. *)

From Stdlib Require Import List String Ascii ZArith Bool Lia.
From Stdlib Require Import Sorting.Sorted Sorting.Permutation.
Import ListNotations.
Open Scope string_scope.
Open Scope Z_scope.
Local Set Warnings "-register-all".

(** ** JSON values as delivered by [express.json()] in [req.body].
    JSON numbers are modelled as integers; the embedding is meant for safe
    integers ([|n| <= 2^53]), which [JSON.parse] reads exactly and which
    [String(n)] renders in plain decimal. *)
Inductive jval : Type :=
| JUndef                          (* a key absent from the body *)
| JNull
| JBool (b : bool)
| JNum (n : Z)
| JStr (s : string)
| JArr (xs : list jval)
| JObj (kvs : list (string * jval)).

(** A parsed JSON object: its keys in order, each once. *)
Definition body := list (string * jval).

(** Property read [req.body.k]: [undefined] when the key is absent. *)
Fixpoint get (b : body) (k : string) : jval :=
  match b with
  | [] => JUndef
  | (k', v) :: b' => if String.eqb k k' then v else get b' k
  end.

(** JavaScript truthiness, as used by [!title] and [publishDate ? .. : ..]. *)
Definition truthy (v : jval) : bool :=
  match v with
  | JUndef | JNull => false
  | JBool b => b
  | JNum n => negb (n =? 0)
  | JStr s => negb (String.eqb s "")
  | JArr _ | JObj _ => true
  end.

(** Decimal rendering of an integer, as [String(n)] does. *)
Fixpoint uint_to_string (u : Decimal.uint) : string :=
  match u with
  | Decimal.Nil => ""
  | Decimal.D0 u => String "0" (uint_to_string u)
  | Decimal.D1 u => String "1" (uint_to_string u)
  | Decimal.D2 u => String "2" (uint_to_string u)
  | Decimal.D3 u => String "3" (uint_to_string u)
  | Decimal.D4 u => String "4" (uint_to_string u)
  | Decimal.D5 u => String "5" (uint_to_string u)
  | Decimal.D6 u => String "6" (uint_to_string u)
  | Decimal.D7 u => String "7" (uint_to_string u)
  | Decimal.D8 u => String "8" (uint_to_string u)
  | Decimal.D9 u => String "9" (uint_to_string u)
  end.

Definition js_number_to_string (n : Z) : string :=
  if n <? 0 then String "-" (uint_to_string (N.to_uint (Z.to_N (- n))))
  else uint_to_string (N.to_uint (Z.to_N n)).

(** [String(v)] for any value, as [ToPrimitive] followed by [ToString]
    produces it: an array is joined with "," after rendering [null] and
    [undefined] elements as the empty string; a plain object gives
    "[object Object]". *)
Fixpoint js_to_string (v : jval) : string :=
  match v with
  | JUndef => "undefined"
  | JNull => "null"
  | JBool true => "true"
  | JBool false => "false"
  | JNum n => js_number_to_string n
  | JStr s => s
  | JArr xs =>
      (fix join (xs : list jval) : string :=
         match xs with
         | [] => ""
         | x :: xs' =>
             let sx := match x with JUndef | JNull => "" | _ => js_to_string x end in
             match xs' with
             | [] => sx
             | _ => append sx (String "," (join xs'))
             end
         end) xs
  | JObj _ => "[object Object]"
  end.

(** A stored document field: the key is missing, is [null], or holds a value. *)
Inductive field (A : Type) : Type :=
| Absent
| Null
| Val (a : A).
Arguments Absent {A}.
Arguments Null {A}.
Arguments Val {A} a.

(** Mongoose's cast of a value to a [String] schema path: scalars are
    converted with [String(v)], arrays and plain objects are a CastError
    ([None]). *)
Definition cast_string (v : jval) : option (field string) :=
  match v with
  | JUndef => Some Absent
  | JNull => Some Null
  | JBool true => Some (Val "true")
  | JBool false => Some (Val "false")
  | JNum n => Some (Val (js_number_to_string n))
  | JStr s => Some (Val s)
  | JArr _ | JObj _ => None
  end.

(** A [String] path with [required: true]: [null], [undefined] and the
    empty string fail validation. *)
Definition cast_required_string (v : jval) : option string :=
  match cast_string v with
  | Some (Val s) => if String.eqb s "" then None else Some s
  | _ => None
  end.

(** A [String] path with a default: the default applies to [undefined] only. *)
Definition cast_string_default (dflt : string) (v : jval) : option (field string) :=
  match v with
  | JUndef => Some (Val dflt)
  | _ => cast_string v
  end.

(** ** Documents *)

(** A document of the [Blog] model ([blogSchema], with [timestamps: true]). *)
Record blog : Type := mkBlog {
  b_id : string;
  title : string;
  excerpt : string;
  featuredImage : field string;
  publishDate : Z;
  slug : string;
  category : string;
  author : field string;
  readTime : field Z;
  tags : field (list string);
  content : string;
  createdAt : Z;
  updatedAt : Z
}.

(** A document of the [GalleryImage] model ([gallerySchema]). *)
Record image : Type := mkImage {
  i_id : string;
  src : string;
  publicId : string;
  alt : field string;
  i_createdAt : Z
}.

(** An external call issued by a handler, in the order issued. *)
Inductive call : Type :=
| GalleryFindById (id : string)
| CloudinaryDestroy (public_id : string)
| GalleryFindByIdAndDelete (id : string)
| GallerySave (id : string)
| BlogFindOne (slug : jval)
| BlogSave (id : string).

Record world : Type := mkWorld {
  blogs : list blog;          (* the [blogs] collection, in natural order *)
  images : list image;        (* the [galleryimages] collection *)
  assets : list string;       (* public ids of the assets at Cloudinary *)
  calls : list call;          (* external calls issued so far *)
  next_oid : N                (* source of fresh ObjectIds *)
}.

(** Fresh ObjectIds: the counter rendered as 24 lower-case hex digits. *)
Fixpoint hex_to_string (u : Hexadecimal.uint) : string :=
  match u with
  | Hexadecimal.Nil => ""
  | Hexadecimal.D0 u => String "0" (hex_to_string u)
  | Hexadecimal.D1 u => String "1" (hex_to_string u)
  | Hexadecimal.D2 u => String "2" (hex_to_string u)
  | Hexadecimal.D3 u => String "3" (hex_to_string u)
  | Hexadecimal.D4 u => String "4" (hex_to_string u)
  | Hexadecimal.D5 u => String "5" (hex_to_string u)
  | Hexadecimal.D6 u => String "6" (hex_to_string u)
  | Hexadecimal.D7 u => String "7" (hex_to_string u)
  | Hexadecimal.D8 u => String "8" (hex_to_string u)
  | Hexadecimal.D9 u => String "9" (hex_to_string u)
  | Hexadecimal.Da u => String "a" (hex_to_string u)
  | Hexadecimal.Db u => String "b" (hex_to_string u)
  | Hexadecimal.Dc u => String "c" (hex_to_string u)
  | Hexadecimal.Dd u => String "d" (hex_to_string u)
  | Hexadecimal.De u => String "e" (hex_to_string u)
  | Hexadecimal.Df u => String "f" (hex_to_string u)
  end.

Fixpoint zeros (k : nat) : string :=
  match k with
  | O => ""
  | S k => String "0" (zeros k)
  end.

Definition oid_of (n : N) : string :=
  let h := hex_to_string (N.to_hex_uint n) in
  append (zeros (24 - String.length h)%nat) h.

(** Mongoose's cast of a route parameter to an ObjectId: 24 hex digits,
    of either case, denoting the lower-case id; anything else is a
    CastError ([None]). *)
Definition lower (c : ascii) : ascii :=
  let n := nat_of_ascii c in
  if ((65 <=? n) && (n <=? 90))%nat then ascii_of_nat (n + 32) else c.

Definition is_hex (c : ascii) : bool :=
  let n := nat_of_ascii (lower c) in
  ((48 <=? n) && (n <=? 57))%nat || ((97 <=? n) && (n <=? 102))%nat.

Fixpoint all_hex (s : string) : bool :=
  match s with
  | EmptyString => true
  | String c s' => is_hex c && all_hex s'
  end.

Fixpoint lower_string (s : string) : string :=
  match s with
  | EmptyString => EmptyString
  | String c s' => String (lower c) (lower_string s')
  end.

Definition cast_objectid (s : string) : option string :=
  if (String.length s =? 24)%nat && all_hex s then Some (lower_string s) else None.

(** ** The surroundings of one request *)
Record env : Type := mkEnv {
  now : Z;                          (* [Date.now()] while the request runs *)
  find_fails : bool;                (* the database rejects find queries *)
  save_fails : bool;                (* the database rejects [save()] *)
  delete_fails : bool;              (* the database rejects [findByIdAndDelete] *)
  destroy_fails : bool;             (* [cloudinary.uploader.destroy] rejects *)
  concurrent : list image -> list image;
     (* writes of concurrently running requests to the gallery collection,
        taking effect between steps A and B of the gallery delete *)
  date_parse : string -> option Z;  (* [new Date(s)] on a string *)
  number_parse : string -> option Z (* [Number(s)] on a non-empty string *)
}.

(** ** Responses *)
Inductive payload : Type :=
| PMsg (message : string)
| PImage (i : image)
| PImages (l : list image)
| PBlog (b : blog)
| PBlogs (l : list blog)
| PDocs (l : list (list (string * jval))).

Record response : Type := mkResponse { status : Z; payload_of : payload }.

(** ** The handler monad: a value, an early [return res.status(..)...], or
    a thrown error, with the world threaded through. *)
Inductive outcome (A : Type) : Type :=
| Done (a : A)
| Reply (r : response)
| Throw.
Arguments Done {A} a.
Arguments Reply {A} r.
Arguments Throw {A}.

Definition M (A : Type) : Type := world -> outcome A * world.

Definition ret {A} (a : A) : M A := fun w => (Done a, w).
Definition reply {A} (r : response) : M A := fun w => (Reply r, w).
Definition throw {A} : M A := fun w => (Throw, w).
Definition bind {A B} (m : M A) (k : A -> M B) : M B :=
  fun w => match m w with
           | (Done a, w') => k a w'
           | (Reply r, w') => (Reply r, w')
           | (Throw, w') => (Throw, w')
           end.
Definition modify (f : world -> world) : M unit := fun w => (Done tt, f w).
Definition issue (c : call) : M unit :=
  modify (fun w => mkWorld (blogs w) (images w) (assets w) (calls w ++ [c]) (next_oid w)).

Notation "x <- c ;; k" := (bind c (fun x => k))
  (at level 61, c at next level, right associativity).
Notation "c ;;; k" := (bind c (fun _ => k))
  (at level 61, right associativity).

(** The [try { ... } catch { res.status(500)... }] of every route. *)
Definition handle (m : M response) (on_error : response) (w : world) : response * world :=
  match m w with
  | (Done r, w') => (r, w')
  | (Reply r, w') => (r, w')
  | (Throw, w') => (on_error, w')
  end.

Definition msg (code : Z) (m : string) : response := mkResponse code (PMsg m).

(** ** Sorting of query results: [.sort({ k: -1 })], stable on ties. *)
Section SortDesc.
Variable A : Type.
Variable key : A -> Z.

Fixpoint insert_desc (x : A) (l : list A) : list A :=
  match l with
  | [] => [x]
  | y :: l' => if key y <=? key x then x :: y :: l' else y :: insert_desc x l'
  end.

Fixpoint sort_desc (l : list A) : list A :=
  match l with
  | [] => []
  | x :: l' => insert_desc x (sort_desc l')
  end.
End SortDesc.
Arguments insert_desc {A} key x l.
Arguments sort_desc {A} key l.

(** ** The Mongoose models and the Cloudinary uploader *)

(** The ObjectId Mongoose assigns to a new document. *)
Definition fresh_oid : M string :=
  fun w => (Done (oid_of (next_oid w)),
            mkWorld (blogs w) (images w) (assets w) (calls w) (N.succ (next_oid w))).

Module Gallery.

Fixpoint find_image (id : string) (l : list image) : option image :=
  match l with
  | [] => None
  | i :: l' => if String.eqb (i_id i) id then Some i else find_image id l'
  end.

Fixpoint remove_image (id : string) (l : list image) : list image :=
  match l with
  | [] => []
  | i :: l' => if String.eqb (i_id i) id then l' else i :: remove_image id l'
  end.

Definition set_images (l : list image) (w : world) : world :=
  mkWorld (blogs w) l (assets w) (calls w) (next_oid w).

(** [GalleryImage.find().sort({ createdAt: -1 })] *)
Definition find_sorted (e : env) : M (list image) :=
  if find_fails e then throw
  else fun w => (Done (sort_desc i_createdAt (images w)), w).

(** [GalleryImage.findById(id)] *)
Definition findById (e : env) (id : string) : M (option image) :=
  issue (GalleryFindById id) ;;;
  if find_fails e then throw
  else match cast_objectid id with
       | None => throw
       | Some oid => fun w => (Done (find_image oid (images w)), w)
       end.

(** [GalleryImage.findByIdAndDelete(id)]: resolves to the removed document,
    or [null] when none matched. *)
Definition findByIdAndDelete (e : env) (id : string) : M (option image) :=
  issue (GalleryFindByIdAndDelete id) ;;;
  if delete_fails e then throw
  else match cast_objectid id with
       | None => throw
       | Some oid => fun w =>
           (Done (find_image oid (images w)), set_images (remove_image oid (images w)) w)
       end.

(** [new GalleryImage({ src, publicId, alt })]: the cast document, or a
    validation error. [createdAt] has [default: Date.now]. *)
Definition new_image (e : env) (oid : string) (srcv pidv altv : jval) : option image :=
  match cast_required_string srcv, cast_required_string pidv,
        cast_string_default "Event Image" altv with
  | Some s, Some p, Some a => Some (mkImage oid s p a (now e))
  | _, _, _ => None
  end.

(** [newImage.save()] *)
Definition save (e : env) (d : option image) (oid : string) : M image :=
  issue (GallerySave oid) ;;;
  if save_fails e then throw
  else match d with
       | None => throw
       | Some i => fun w => (Done i, set_images (images w ++ [i]) w)
       end.

End Gallery.

Module Cloudinary.

(** What [uploader.destroy] resolves to: [{ result: "ok" }] or
    [{ result: "not found" }]. *)
Inductive destroy_result : Type := ResultOk | ResultNotFound.

Fixpoint remove_asset (p : string) (l : list string) : list string :=
  match l with
  | [] => []
  | q :: l' => if String.eqb q p then l' else q :: remove_asset p l'
  end.

(** [cloudinary.uploader.destroy(publicId)] *)
Definition destroy (e : env) (p : string) : M destroy_result :=
  issue (CloudinaryDestroy p) ;;;
  if destroy_fails e then throw
  else fun w =>
    if existsb (String.eqb p) (assets w)
    then (Done ResultOk,
          mkWorld (blogs w) (images w) (remove_asset p (assets w)) (calls w) (next_oid w))
    else (Done ResultNotFound, w).

End Cloudinary.

(** The writes of concurrent requests, between steps A and B. *)
Definition concurrent_writes (e : env) : M unit :=
  modify (fun w => Gallery.set_images (concurrent e (images w)) w).

(** ** Gallery routes *)

(** [app.get("/api/gallery")] *)
Definition get_gallery (e : env) : world -> response * world :=
  handle (images <- Gallery.find_sorted e ;;
          ret (mkResponse 200 (PImages images)))
         (msg 500 "Failed to fetch images").

(** [app.post("/api/gallery")] *)
Definition post_gallery (e : env) (req_body : body) : world -> response * world :=
  handle (let src := get req_body "src" in
          let publicId := get req_body "publicId" in
          let alt := get req_body "alt" in
          if negb (truthy src) || negb (truthy publicId)
          then reply (msg 400 "Missing image data")
          else
            oid <- fresh_oid ;;
            let newImage := Gallery.new_image e oid src publicId alt in
            saved <- Gallery.save e newImage oid ;;
            ret (mkResponse 201 (PImage saved)))
         (msg 500 "Failed to save image").

(** [app.delete("/api/gallery/:id")] *)
Definition delete_gallery (e : env) (id : string) : world -> response * world :=
  handle (image <- Gallery.findById e id ;;
          match image with
          | None => reply (msg 404 "Image not found")
          | Some image =>
              (* Step A: Delete from Cloudinary *)
              _ <- Cloudinary.destroy e (publicId image) ;;
              concurrent_writes e ;;;
              (* Step B: Delete from MongoDB *)
              _ <- Gallery.findByIdAndDelete e id ;;
              ret (msg 200 "Image deleted successfully")
          end)
         (msg 500 "Delete failed").

Module Blog.

Fixpoint find_by_slug (s : string) (l : list blog) : option blog :=
  match l with
  | [] => None
  | b :: l' => if String.eqb (slug b) s then Some b else find_by_slug s l'
  end.

Definition set_blogs (l : list blog) (w : world) : world :=
  mkWorld l (images w) (assets w) (calls w) (next_oid w).

(** [Blog.find().sort({ publishDate: -1 })] *)
Definition find_sorted (e : env) : M (list blog) :=
  if find_fails e then throw
  else fun w => (Done (sort_desc publishDate (blogs w)), w).

(** The document as Mongoose serialises it; dates by their millisecond value. *)
Definition field_json {A} (f : A -> jval) (k : string) (v : field A) : list (string * jval) :=
  match v with
  | Absent => []
  | Null => [(k, JNull)]
  | Val a => [(k, f a)]
  end.

Definition to_doc (b : blog) : list (string * jval) :=
  [("_id", JStr (b_id b)); ("title", JStr (title b)); ("excerpt", JStr (excerpt b))]
  ++ field_json JStr "featuredImage" (featuredImage b)
  ++ [("publishDate", JNum (publishDate b)); ("slug", JStr (slug b));
      ("category", JStr (category b))]
  ++ field_json JStr "author" (author b)
  ++ field_json JNum "readTime" (readTime b)
  ++ field_json (fun l => JArr (map JStr l)) "tags" (tags b)
  ++ [("content", JStr (content b)); ("createdAt", JNum (createdAt b));
      ("updatedAt", JNum (updatedAt b)); ("__v", JNum 0)].

(** An inclusion projection such as [{ title: 1, slug: 1 }]: the listed
    keys and, as MongoDB does unless it is excluded, [_id]. *)
Definition project (keep : list string) (d : list (string * jval)) : list (string * jval) :=
  filter (fun kv => String.eqb (fst kv) "_id" || existsb (String.eqb (fst kv)) keep) d.

(** [Blog.find({}, { title: 1, slug: 1 }).sort({ createdAt: -1 })] *)
Definition find_projected_sorted (e : env) : M (list (list (string * jval))) :=
  if find_fails e then throw
  else fun w => (Done (map (fun b => project ["title"; "slug"] (to_doc b))
                           (sort_desc createdAt (blogs w))), w).

(** [Blog.findOne({ slug })]: the query value is cast like the path. *)
Definition findOne (e : env) (slugv : jval) : M (option blog) :=
  issue (BlogFindOne slugv) ;;;
  if find_fails e then throw
  else match cast_string slugv with
       | Some (Val s) => fun w => (Done (find_by_slug s (blogs w)), w)
       | Some _ => fun w => (Done None, w)   (* no matching document has a missing slug *)
       | None => throw
       end.

(** [new Date(v)]: [None] is an Invalid Date. A number is a time value
    (TimeClip bounds it), [null] and booleans convert to numbers, and any
    other object (an array, a plain object) is converted to a string by
    [ToPrimitive] and parsed like a string. *)
Definition js_new_date (e : env) (v : jval) : option Z :=
  match v with
  | JNum n => if Z.abs n <=? 8640000000000000 then Some n else None
  | JStr s => date_parse e s
  | JBool b => Some (Z.b2z b)
  | JNull => Some 0
  | JArr _ | JObj _ => date_parse e (js_to_string v)
  | JUndef => None
  end.

(** Mongoose's cast to a [Number] path ([readTime]). *)
Definition cast_number (e : env) (v : jval) : option (field Z) :=
  match v with
  | JUndef => Some Absent
  | JNull => Some Null
  | JNum n => Some (Val n)
  | JBool b => Some (Val (Z.b2z b))
  | JStr s => if String.eqb s "" then Some Null
              else match number_parse e s with Some n => Some (Val n) | None => None end
  | JArr _ | JObj _ => None
  end.

Fixpoint cast_strings (l : list jval) : option (list string) :=
  match l with
  | [] => Some []
  | v :: l' => match cast_string v, cast_strings l' with
               | Some (Val s), Some r => Some (s :: r)
               | _, _ => None
               end
  end.

(** Mongoose's cast to a [[String]] path ([tags]): arrays default to [[]],
    a scalar is wrapped into a one-element array. *)
Definition cast_string_array (v : jval) : option (field (list string)) :=
  match v with
  | JUndef => Some (Val [])
  | JNull => Some Null
  | JArr l => option_map Val (cast_strings l)
  | JObj _ => None
  | _ => option_map Val (cast_strings [v])
  end.

(** The arguments of [new Blog({ ... })] in the create route. *)
Record blog_input : Type := mkBlogInput {
  in_title : jval; in_excerpt : jval; in_featuredImage : jval;
  in_category : jval; in_content : jval; in_slug : jval;
  in_author : jval; in_readTime : jval; in_tags : jval;
  in_publishDate : option Z     (* [new Date(..)], [None] for an Invalid Date *)
}.

(** [new Blog(input)] followed by the validation of [save()]: the cast
    document, or a validation error. The timestamps are set on save. *)
Definition new_blog (e : env) (oid : string) (d : blog_input) : option blog :=
  match cast_required_string (in_title d), cast_required_string (in_excerpt d),
        cast_string (in_featuredImage d), in_publishDate d,
        cast_required_string (in_slug d), cast_required_string (in_category d),
        cast_string_default "Admin" (in_author d), cast_number e (in_readTime d),
        cast_string_array (in_tags d), cast_required_string (in_content d) with
  | Some t, Some x, Some fi, Some pd, Some s, Some c, Some a, Some rt, Some tg, Some ct =>
      Some (mkBlog oid t x fi pd s c a rt tg ct (now e) (now e))
  | _, _, _, _, _, _, _, _, _, _ => None
  end.

(** [newBlog.save()]: validation, then the unique index on [slug]. *)
Definition save (e : env) (d : option blog) (oid : string) : M blog :=
  issue (BlogSave oid) ;;;
  if save_fails e then throw
  else match d with
       | None => throw
       | Some b => fun w =>
           match find_by_slug (slug b) (blogs w) with
           | Some _ => (Throw, w)          (* E11000 duplicate key *)
           | None => (Done b, set_blogs (blogs w ++ [b]) w)
           end
       end.

End Blog.

(** ** Blog routes *)

(** [app.get("/api/blogs")] *)
Definition get_blogs (e : env) : world -> response * world :=
  handle (blogs <- Blog.find_sorted e ;;
          ret (mkResponse 200 (PBlogs blogs)))
         (msg 500 "Failed to fetch blogs").

(** [app.get("/api/admin/blogs")] *)
Definition get_admin_blogs (e : env) : world -> response * world :=
  handle (blogs <- Blog.find_projected_sorted e ;;
          ret (mkResponse 200 (PDocs blogs)))
         (msg 500 "Failed to fetch blog list").

(** [app.post("/api/blogs")] *)
Definition post_blogs (e : env) (req_body : body) : world -> response * world :=
  handle (let title := get req_body "title" in
          let excerpt := get req_body "excerpt" in
          let featuredImage := get req_body "featuredImage" in
          let category := get req_body "category" in
          let content := get req_body "content" in
          let slug := get req_body "slug" in
          let author := get req_body "author" in
          let readTime := get req_body "readTime" in
          let tags := get req_body "tags" in
          let publishDate := get req_body "publishDate" in
          if negb (truthy title) || negb (truthy excerpt) || negb (truthy category)
             || negb (truthy content) || negb (truthy slug)
          then reply (msg 400 "Missing required fields")
          else
            exists_ <- Blog.findOne e slug ;;
            match exists_ with
            | Some _ => reply (msg 409 "Slug already exists")
            | None =>
                oid <- fresh_oid ;;
                let newBlog := Blog.new_blog e oid
                  (Blog.mkBlogInput title excerpt featuredImage category content slug
                     author readTime tags
                     (if truthy publishDate then Blog.js_new_date e publishDate
                      else Some (now e))) in
                savedBlog <- Blog.save e newBlog oid ;;
                ret (mkResponse 201 (PBlog savedBlog))
            end)
         (msg 500 "Failed to create blog").

(** ** The remaining routes *)

(** The first post with the given slug removed. *)
Fixpoint remove_blog_by_slug (s : string) (l : list blog) : list blog :=
  match l with
  | [] => []
  | b :: l' => if String.eqb (slug b) s then l' else b :: remove_blog_by_slug s l'
  end.

(** [Blog.findOneAndDelete({ slug })]: resolves to the removed document, or
    [null]; a rejection is read from [delete_fails], as for
    [findByIdAndDelete]. The call is not entered in the call log. *)
Definition blog_findOneAndDelete (e : env) (s : string) : M (option blog) :=
  if delete_fails e then throw
  else fun w => (Done (Blog.find_by_slug s (blogs w)),
                 Blog.set_blogs (remove_blog_by_slug s (blogs w)) w).

(** [app.get("/api/blogs/:slug")]: the route parameter is a string. *)
Definition get_blog_by_slug (e : env) (slug_param : string) : world -> response * world :=
  handle (blog <- Blog.findOne e (JStr slug_param) ;;
          match blog with
          | None => reply (msg 404 "Blog not found")
          | Some blog => ret (mkResponse 200 (PBlog blog))
          end)
         (msg 500 "Error fetching blog").

(** [app.delete("/api/blogs/slug/:slug")] *)
Definition delete_blog_by_slug (e : env) (slug_param : string) : world -> response * world :=
  handle (deleted <- blog_findOneAndDelete e slug_param ;;
          match deleted with
          | None => reply (msg 404 "Blog not found")
          | Some _ => ret (msg 200 "Blog deleted successfully")
          end)
         (msg 500 "Delete failed").

(** The [cors({ origin: [...], methods: [...] })] middleware.  With an array
    for [origin], the package compares the request's [Origin] header with
    each entry by string equality and, on a match, echoes it in
    [Access-Control-Allow-Origin]; otherwise the header is not set. *)
Definition cors_origins : list string :=
  ["http://localhost:5173"; "https://skybm.onrender.com"; "https://skybm.in/"].

Definition cors_allow_origin (origin : option string) : option string :=
  match origin with
  | Some o => if existsb (String.eqb o) cors_origins then Some o else None
  | None => None
  end.

(** ** Sample data *)

(** A quiet environment: no call rejects, no concurrent writes. *)
Definition env0 : env :=
  mkEnv 1000 false false false false (fun l => l) (fun _ => None) (fun _ => None).

Definition img5 : image := mkImage (oid_of 5) "https://x/y.jpg" "pic1" (Val "Event Image") 500.

Definition post_a : blog :=
  mkBlog (oid_of 7) "A" "B" Absent 300 "a-post" "C" (Val "Admin") Absent (Val []) "D" 300 300.

(** One image and its asset, one blog post. *)
Definition world0 : world := mkWorld [post_a] [img5] ["pic1"] [] 8.

(** The body of the create example of the spec. *)
Definition body_a : body :=
  [("title", JStr "A"); ("excerpt", JStr "B"); ("category", JStr "C");
   ("content", JStr "D"); ("slug", JStr "a-post")].

Definition body_b : body :=
  [("title", JStr "A2"); ("excerpt", JStr "B"); ("category", JStr "C");
   ("content", JStr "D"); ("slug", JStr "b-post")].

(** * Properties *)
Local Open Scope list_scope.

(** ** Sorting *)
Section SortDescFacts.
Variable A : Type.
Variable key : A -> Z.

Definition desc (a b : A) : Prop := key b <= key a.

Lemma insert_desc_perm (x : A) (l : list A) :
  Permutation (insert_desc key x l) (x :: l).
Proof.
  induction l as [| y l IH]; simpl; [reflexivity |].
  destruct (key y <=? key x); [reflexivity |].
  rewrite IH. apply perm_swap.
Qed.

Lemma sort_desc_perm (l : list A) : Permutation (sort_desc key l) l.
Proof.
  induction l as [| x l IH]; simpl; [reflexivity |].
  rewrite insert_desc_perm. now apply perm_skip.
Qed.

Lemma insert_desc_sorted (x : A) (l : list A) :
  Sorted desc l -> Sorted desc (insert_desc key x l).
Proof.
  induction 1 as [| y l Hs IH Hhd]; simpl.
  - repeat constructor.
  - destruct (key y <=? key x) eqn:E.
    + constructor; [constructor; assumption |].
      constructor. unfold desc. apply Z.leb_le. exact E.
    + constructor; [exact IH |].
      apply Z.leb_gt in E.
      destruct l as [| z l]; simpl.
      * constructor. unfold desc. lia.
      * inversion Hhd; subst.
        destruct (key z <=? key x); constructor; unfold desc in *; lia.
Qed.

Lemma sort_desc_sorted (l : list A) : Sorted desc (sort_desc key l).
Proof.
  induction l as [| x l IH]; simpl; [constructor |].
  now apply insert_desc_sorted.
Qed.
End SortDescFacts.
Arguments desc {A} key a b.

(** ** Lookups *)
Lemma find_image_in (id : string) (l : list image) (i : image) :
  Gallery.find_image id l = Some i -> In i l.
Proof.
  induction l as [| j l IH]; simpl; [discriminate |].
  destruct (String.eqb (i_id j) id); [intros [= ->]; now left | intros H; right; auto].
Qed.

(** ** Unfolding the handlers *)
Ltac run_handler :=
  cbv beta delta [delete_gallery post_gallery get_gallery get_blogs get_admin_blogs
    post_blogs handle bind ret reply throw modify issue msg concurrent_writes
    Gallery.findById Gallery.findByIdAndDelete Gallery.save Gallery.find_sorted
    Cloudinary.destroy Blog.findOne Blog.save Blog.find_sorted
    Blog.find_projected_sorted fresh_oid] iota zeta.

(** ** Gallery deletion *)

(** C1: when the lookup by [id] finds a record, the Cloudinary deletion of
    its stored [publicId] is issued strictly before the database deletion;
    when the Cloudinary call rejects, the response is the generic 500 and
    the record (as well as the asset) is still present. *)
Theorem delete_gallery_destroy_before_delete (e : env) (id oid : string)
    (w : world) (img : image) :
  find_fails e = false ->
  cast_objectid id = Some oid ->
  Gallery.find_image oid (images w) = Some img ->
  let (r, w') := delete_gallery e id w in
  (exists rest, calls w' = calls w ++ [GalleryFindById id; CloudinaryDestroy (publicId img)] ++ rest
                /\ (rest = [] \/ rest = [GalleryFindByIdAndDelete id]))
  /\ (destroy_fails e = true ->
      r = msg 500 "Delete failed" /\ In img (images w') /\ assets w' = assets w).
Proof.
  intros Hf Hc Hi. run_handler. simpl. rewrite Hf, Hc. simpl. rewrite Hi.
  destruct (destroy_fails e) eqn:Hd; simpl.
  - split.
    + exists []. split; [| now left]. now rewrite <- app_assoc.
    + intros _. split; [reflexivity | split; [| reflexivity]].
      now apply find_image_in in Hi.
  - destruct (existsb (String.eqb (publicId img)) (assets w)); simpl;
      destruct (delete_fails e); simpl; rewrite ?Hc; simpl;
      (split; [| discriminate]); (exists [GalleryFindByIdAndDelete id]; split; [| now right];
       now rewrite <- !app_assoc).
Qed.

(** C1 witness. *)
Lemma delete_gallery_destroy_before_delete_witness :
  find_fails env0 = false /\ cast_objectid (oid_of 5) = Some (oid_of 5) /\
  Gallery.find_image (oid_of 5) (images world0) = Some img5 /\
  let (r, w') := delete_gallery env0 (oid_of 5) world0 in
  (exists rest, calls w' = calls world0 ++ [GalleryFindById (oid_of 5); CloudinaryDestroy (publicId img5)] ++ rest
                /\ (rest = [] \/ rest = [GalleryFindByIdAndDelete (oid_of 5)]))
  /\ (destroy_fails env0 = true ->
      r = msg 500 "Delete failed" /\ In img5 (images w') /\ assets w' = assets world0).
Proof.
  split; [reflexivity | split; [vm_compute; reflexivity | split; [vm_compute; reflexivity |]]].
  apply (delete_gallery_destroy_before_delete env0 (oid_of 5) (oid_of 5)); vm_compute; reflexivity.
Defined.

(** C5 (as stated, refuted): an id that is not an ObjectId matches no
    stored record, yet the lookup throws a CastError and the response is
    the generic 500, not 404. *)
Lemma delete_gallery_malformed_id_not_404 :
  Gallery.find_image "abc" (images world0) = None /\
  fst (delete_gallery env0 "abc" world0) = msg 500 "Delete failed".
Proof. split; vm_compute; reflexivity. Qed.

(** C5 (amended): for a well-formed ObjectId matching no stored record and
    a lookup that does not reject, the response is 404, the collections
    and assets are unchanged, and the only call issued is the lookup (no
    Cloudinary call). *)
Theorem delete_gallery_not_found (e : env) (id oid : string) (w : world) :
  find_fails e = false ->
  cast_objectid id = Some oid ->
  Gallery.find_image oid (images w) = None ->
  delete_gallery e id w =
    (msg 404 "Image not found",
     mkWorld (blogs w) (images w) (assets w) (calls w ++ [GalleryFindById id]) (next_oid w)).
Proof.
  intros Hf Hc Hi. run_handler. simpl. rewrite Hf, Hc. simpl. rewrite Hi. reflexivity.
Qed.

(** C5 witness. *)
Lemma delete_gallery_not_found_witness :
  let id := oid_of 6 in
  find_fails env0 = false /\ cast_objectid id = Some id /\
  Gallery.find_image id (images world0) = None /\
  delete_gallery env0 id world0 =
    (msg 404 "Image not found",
     mkWorld (blogs world0) (images world0) (assets world0)
             (calls world0 ++ [GalleryFindById id]) (next_oid world0)).
Proof.
  split; [reflexivity | split; [vm_compute; reflexivity | split; [vm_compute; reflexivity |]]].
  apply (delete_gallery_not_found env0 (oid_of 6) (oid_of 6)); vm_compute; reflexivity.
Defined.

(** The successful run of the gallery delete. *)
Lemma delete_gallery_success (e : env) (id oid : string)
    (w : world) (img : image) :
  find_fails e = false -> destroy_fails e = false -> delete_fails e = false ->
  cast_objectid id = Some oid ->
  Gallery.find_image oid (images w) = Some img ->
  let (r, w') := delete_gallery e id w in
  r = msg 200 "Image deleted successfully"
  /\ images w' = Gallery.remove_image oid (concurrent e (images w))
  /\ calls w' = calls w ++ [GalleryFindById id; CloudinaryDestroy (publicId img);
                            GalleryFindByIdAndDelete id].
Proof.
  intros Hf Hd Hdel Hc Hi. run_handler. simpl. rewrite Hf, Hc. simpl. rewrite Hi.
  rewrite Hd. simpl.
  destruct (existsb (String.eqb (publicId img)) (assets w)); simpl;
    rewrite ?Hdel, ?Hc; simpl;
    (split; [reflexivity | split; [reflexivity |]]);
    now rewrite <- !app_assoc.
Qed.

(** C8: the value [uploader.destroy] resolves to is not inspected: for any
    assets held at Cloudinary (in particular when the asset is missing and
    the call resolves to [{ result: "not found" }]), once the call does not
    reject, the database record is deleted and the response is 200. *)
Theorem delete_gallery_ignores_destroy_result (e : env) (id oid : string)
    (w : world) (img : image) :
  find_fails e = false -> destroy_fails e = false -> delete_fails e = false ->
  cast_objectid id = Some oid ->
  Gallery.find_image oid (images w) = Some img ->
  let (r, w') := delete_gallery e id w in
  r = msg 200 "Image deleted successfully"
  /\ images w' = Gallery.remove_image oid (concurrent e (images w))
  /\ calls w' = calls w ++ [GalleryFindById id; CloudinaryDestroy (publicId img);
                            GalleryFindByIdAndDelete id].
Proof. apply delete_gallery_success. Qed.

(** C8 witness: the asset is already gone from Cloudinary. *)
Lemma delete_gallery_ignores_destroy_result_witness :
  let w := mkWorld [] [img5] [] [] 8 in
  existsb (String.eqb (publicId img5)) (assets w) = false /\
  let (r, w') := delete_gallery env0 (oid_of 5) w in
  r = msg 200 "Image deleted successfully"
  /\ images w' = Gallery.remove_image (oid_of 5) (concurrent env0 (images w))
  /\ calls w' = calls w ++ [GalleryFindById (oid_of 5); CloudinaryDestroy (publicId img5);
                            GalleryFindByIdAndDelete (oid_of 5)].
Proof.
  split; [reflexivity |].
  apply (delete_gallery_ignores_destroy_result env0 (oid_of 5) (oid_of 5)
           (mkWorld [] [img5] [] [] 8) img5); vm_compute; reflexivity.
Defined.

Lemma remove_image_absent (id : string) (l : list image) :
  Gallery.find_image id l = None -> Gallery.remove_image id l = l.
Proof.
  induction l as [| i l IH]; simpl; [reflexivity |].
  destruct (String.eqb (i_id i) id); [discriminate | intros H; now rewrite IH].
Qed.

(** C9: the result of the final [findByIdAndDelete] is not inspected: when
    the lookup found the record, no call rejects, and a concurrent request
    removed the record before step B (so step B deletes nothing), the
    response is still 200. *)
Theorem delete_gallery_ignores_delete_result (e : env) (id oid : string)
    (w : world) (img : image) :
  find_fails e = false -> destroy_fails e = false -> delete_fails e = false ->
  cast_objectid id = Some oid ->
  Gallery.find_image oid (images w) = Some img ->
  Gallery.find_image oid (concurrent e (images w)) = None ->
  let (r, w') := delete_gallery e id w in
  r = msg 200 "Image deleted successfully" /\ images w' = concurrent e (images w).
Proof.
  intros Hf Hd Hdel Hc Hi Hgone.
  pose proof (delete_gallery_success e id oid w img Hf Hd Hdel Hc Hi) as H.
  destruct (delete_gallery e id w) as [r w'].
  destruct H as [Hr [Him _]]. split; [exact Hr |].
  rewrite Him. now apply remove_image_absent.
Qed.

(** C9 witness: a concurrent request empties the collection between the
    two steps. *)
Lemma delete_gallery_ignores_delete_result_witness :
  let e := mkEnv 1000 false false false false (fun _ => []) (fun _ => None) (fun _ => None) in
  Gallery.find_image (oid_of 5) (concurrent e (images world0)) = None /\
  let (r, w') := delete_gallery e (oid_of 5) world0 in
  r = msg 200 "Image deleted successfully" /\ images w' = concurrent e (images world0).
Proof.
  split; [reflexivity |].
  apply (delete_gallery_ignores_delete_result
           (mkEnv 1000 false false false false (fun _ => []) (fun _ => None) (fun _ => None))
           (oid_of 5) (oid_of 5) world0 img5); vm_compute; reflexivity.
Defined.

(** ** Gallery creation *)

(** C10: the create route reads only [src], [publicId] and [alt] from the
    body: two bodies agreeing on these keys give the same response and the
    same world. A stored image gets [createdAt] from the server clock. *)
Theorem post_gallery_reads_only_src_publicId_alt (e : env) (b1 b2 : body) (w : world) :
  (forall k, k = "src" \/ k = "publicId" \/ k = "alt" -> get b1 k = get b2 k) ->
  post_gallery e b1 w = post_gallery e b2 w
  /\ (let (r, w') := post_gallery e b1 w in
      status r = 201 ->
      exists i, payload_of r = PImage i /\ i_createdAt i = now e
                /\ images w' = images w ++ [i]).
Proof.
  intros Hk. split.
  - unfold post_gallery.
    rewrite (Hk "src"), (Hk "publicId"), (Hk "alt") by auto. reflexivity.
  - run_handler.
    destruct (negb (truthy (get b1 "src")) || negb (truthy (get b1 "publicId")));
      simpl; [discriminate |].
    destruct (save_fails e); simpl; [discriminate |].
    destruct (Gallery.new_image e (oid_of (next_oid w)) (get b1 "src")
                (get b1 "publicId") (get b1 "alt")) as [i |] eqn:Ei;
      simpl; [| discriminate].
    intros _. exists i. split; [reflexivity | split; [| reflexivity]].
    unfold Gallery.new_image in Ei.
    destruct (cast_required_string (get b1 "src")), (cast_required_string (get b1 "publicId")),
      (cast_string_default "Event Image" (get b1 "alt")); try discriminate.
    injection Ei as <-. reflexivity.
Qed.

(** C10 witness: caller-supplied [id] and [createdAt] change nothing. *)
Lemma post_gallery_reads_only_src_publicId_alt_witness :
  let b1 := [("src", JStr "https://x/y.jpg"); ("publicId", JStr "pic2");
             ("id", JStr "zz"); ("createdAt", JNum 1)] in
  let b2 := [("src", JStr "https://x/y.jpg"); ("publicId", JStr "pic2")] in
  (forall k, k = "src" \/ k = "publicId" \/ k = "alt" -> get b1 k = get b2 k) /\
  post_gallery env0 b1 world0 = post_gallery env0 b2 world0
  /\ (let (r, w') := post_gallery env0 b1 world0 in
      status r = 201 ->
      exists i, payload_of r = PImage i /\ i_createdAt i = now env0
                /\ images w' = images world0 ++ [i]).
Proof.
  assert (H : forall k, k = "src" \/ k = "publicId" \/ k = "alt" ->
    get [("src", JStr "https://x/y.jpg"); ("publicId", JStr "pic2");
         ("id", JStr "zz"); ("createdAt", JNum 1)] k =
    get [("src", JStr "https://x/y.jpg"); ("publicId", JStr "pic2")] k)
    by (intros k [-> | [-> | ->]]; reflexivity).
  split; [exact H |].
  exact (post_gallery_reads_only_src_publicId_alt env0 _ _ world0 H).
Defined.

(** ** Blog creation *)

(** C3: a body where one of [title], [excerpt], [category], [content],
    [slug] is absent or the empty string gets 400 and the world (both
    collections, the assets and the calls issued) is left as it was. *)
Theorem post_blogs_missing_required (e : env) (b : body) (w : world) (k : string) :
  In k ["title"; "excerpt"; "category"; "content"; "slug"] ->
  get b k = JUndef \/ get b k = JStr "" ->
  post_blogs e b w = (msg 400 "Missing required fields", w).
Proof.
  intros Hin Hv.
  assert (Hk : truthy (get b k) = false) by (destruct Hv as [-> | ->]; reflexivity).
  unfold post_blogs, handle.
  destruct Hin as [<- | [<- | [<- | [<- | [<- | []]]]]]; rewrite Hk; simpl negb;
    rewrite ?orb_true_r, ?orb_true_l; reflexivity.
Qed.

(** C3 witness: the example body without its [content]. *)
Lemma post_blogs_missing_required_witness :
  let b := [("title", JStr "A"); ("excerpt", JStr "B"); ("category", JStr "C");
            ("content", JStr ""); ("slug", JStr "new-post")] in
  In "content" ["title"; "excerpt"; "category"; "content"; "slug"] /\
  (get b "content" = JUndef \/ get b "content" = JStr "") /\
  post_blogs env0 b world0 = (msg 400 "Missing required fields", world0).
Proof.
  split; [simpl; tauto | split; [right; reflexivity |]].
  apply (post_blogs_missing_required env0 _ world0 "content"); [simpl; tauto | right; reflexivity].
Defined.

Lemma find_by_slug_in (s : string) (l : list blog) (p : blog) :
  In p l -> slug p = s -> exists q, Blog.find_by_slug s l = Some q.
Proof.
  induction l as [| q l IH]; simpl; [tauto |].
  intros [-> | Hin] Hs.
  - rewrite Hs, String.eqb_refl. eauto.
  - destruct (String.eqb (slug q) s); eauto.
Qed.

(** C2 (as stated, refuted): a body whose slug is taken but whose [title]
    is missing gets the 400 of the required-field check, which runs first,
    not the 409. *)
Lemma post_blogs_taken_slug_missing_title_not_409 :
  In post_a (blogs world0) /\
  get [("excerpt", JStr "B"); ("category", JStr "C"); ("content", JStr "D");
       ("slug", JStr "a-post")] "slug" = JStr (slug post_a) /\
  fst (post_blogs env0 [("excerpt", JStr "B"); ("category", JStr "C");
                        ("content", JStr "D"); ("slug", JStr "a-post")] world0)
    = msg 400 "Missing required fields".
Proof. split; [now left | split; reflexivity]. Qed.

(** C2 (amended): a body whose five required fields are all truthy and
    whose slug is the slug of a stored post gets 409, provided the
    [findOne] lookup does not reject; nothing is written: the world only
    records the lookup. *)
Theorem post_blogs_taken_slug_conflict (e : env) (b : body) (w : world) (p : blog) :
  truthy (get b "title") = true -> truthy (get b "excerpt") = true ->
  truthy (get b "category") = true -> truthy (get b "content") = true ->
  truthy (get b "slug") = true ->
  get b "slug" = JStr (slug p) -> In p (blogs w) ->
  find_fails e = false ->
  post_blogs e b w =
    (msg 409 "Slug already exists",
     mkWorld (blogs w) (images w) (assets w) (calls w ++ [BlogFindOne (JStr (slug p))])
             (next_oid w)).
Proof.
  intros Ht Hx Hc Hct Hsl Hs Hin Hf.
  destruct (find_by_slug_in (slug p) (blogs w) p Hin eq_refl) as [q Hq].
  unfold post_blogs, handle.
  rewrite Ht, Hx, Hc, Hct, Hsl. simpl negb. cbv iota.
  run_handler. simpl. rewrite Hs, Hf. simpl. rewrite Hq. reflexivity.
Qed.

(** C2 witness. *)
Lemma post_blogs_taken_slug_conflict_witness :
  truthy (get body_a "title") = true /\ truthy (get body_a "excerpt") = true /\
  truthy (get body_a "category") = true /\ truthy (get body_a "content") = true /\
  truthy (get body_a "slug") = true /\
  get body_a "slug" = JStr (slug post_a) /\ In post_a (blogs world0) /\
  find_fails env0 = false /\
  post_blogs env0 body_a world0 =
    (msg 409 "Slug already exists",
     mkWorld (blogs world0) (images world0) (assets world0)
             (calls world0 ++ [BlogFindOne (JStr (slug post_a))]) (next_oid world0)).
Proof.
  do 6 (split; [reflexivity |]). split; [now left |]. split; [reflexivity |].
  apply post_blogs_taken_slug_conflict; try reflexivity. now left.
Defined.

(** ** Blog listings *)

(** C4: [GET /api/blogs] returns every stored post, no more and no fewer,
    ordered by [publishDate] descending, whatever the stored order. *)
Theorem get_blogs_sorted_by_publishDate (e : env) (w : world) :
  find_fails e = false ->
  exists l, get_blogs e w = (mkResponse 200 (PBlogs l), w)
            /\ Permutation l (blogs w) /\ Sorted (desc publishDate) l.
Proof.
  intros Hf. exists (sort_desc publishDate (blogs w)).
  run_handler. rewrite Hf. split; [reflexivity |].
  split; [apply sort_desc_perm | apply sort_desc_sorted].
Qed.

(** C4 witness: two posts stored oldest first. *)
Lemma get_blogs_sorted_by_publishDate_witness :
  let w := mkWorld [post_a; mkBlog (oid_of 9) "E" "F" Absent 900 "e-post" "C"
                               (Val "Admin") Absent (Val []) "G" 900 900] [] [] [] 10 in
  find_fails env0 = false /\
  exists l, get_blogs env0 w = (mkResponse 200 (PBlogs l), w)
            /\ Permutation l (blogs w) /\ Sorted (desc publishDate) l.
Proof.
  split; [reflexivity |]. apply get_blogs_sorted_by_publishDate. reflexivity.
Defined.

(** The admin projection of a post. *)
Lemma project_title_slug (b : blog) :
  Blog.project ["title"; "slug"] (Blog.to_doc b) =
  [("_id", JStr (b_id b)); ("title", JStr (title b)); ("slug", JStr (slug b))].
Proof.
  unfold Blog.project, Blog.to_doc.
  destruct (featuredImage b), (author b), (readTime b), (tags b); reflexivity.
Qed.

(** C7 (as stated, refuted): the documents of [GET /api/admin/blogs] carry
    [_id] besides [title] and [slug], since an inclusion projection keeps
    [_id] unless it is excluded. *)
Lemma get_admin_blogs_keeps_id :
  exists docs, fst (get_admin_blogs env0 world0) = mkResponse 200 (PDocs docs)
               /\ map (map fst) docs = [["_id"; "title"; "slug"]]
               /\ map (map fst) docs <> [["title"; "slug"]].
Proof.
  eexists. split; [vm_compute; reflexivity |]. split; [reflexivity | discriminate].
Qed.

(** C7 (amended): [GET /api/admin/blogs] returns every stored post projected
    to [_id], [title] and [slug], ordered by [createdAt] descending. *)
Theorem get_admin_blogs_projected (e : env) (w : world) :
  find_fails e = false ->
  exists l, get_admin_blogs e w =
              (mkResponse 200 (PDocs (map (fun b => [("_id", JStr (b_id b));
                                                     ("title", JStr (title b));
                                                     ("slug", JStr (slug b))]) l)), w)
            /\ Permutation l (blogs w) /\ Sorted (desc createdAt) l.
Proof.
  intros Hf. exists (sort_desc createdAt (blogs w)).
  run_handler. rewrite Hf. split.
  - do 3 f_equal. apply map_ext. apply project_title_slug.
  - split; [apply sort_desc_perm | apply sort_desc_sorted].
Qed.

(** C7 witness. *)
Lemma get_admin_blogs_projected_witness :
  find_fails env0 = false /\
  exists l, get_admin_blogs env0 world0 =
              (mkResponse 200 (PDocs (map (fun b => [("_id", JStr (b_id b));
                                                     ("title", JStr (title b));
                                                     ("slug", JStr (slug b))]) l)), world0)
            /\ Permutation l (blogs world0) /\ Sorted (desc createdAt) l.
Proof. split; [reflexivity |]. apply get_admin_blogs_projected. reflexivity. Defined.

Lemma truthy_str (s : string) : String.eqb s "" = false -> truthy (JStr s) = true.
Proof. simpl. now intros ->. Qed.

Lemma cast_required_str (s : string) :
  String.eqb s "" = false -> cast_required_string (JStr s) = Some s.
Proof. unfold cast_required_string. simpl. now intros ->. Qed.

(** C6 (code bug): a supplied but falsy [publishDate] such as [0] is
    replaced by the creation time, although the route's comment says the
    fallback applies only when no [publishDate] is provided. *)
Lemma post_blogs_falsy_publishDate_replaced :
  exists bl, fst (post_blogs env0 (body_b ++ [("publishDate", JNum 0)]) world0)
               = mkResponse 201 (PBlog bl)
             /\ publishDate bl = now env0 /\ publishDate bl <> 0.
Proof.
  eexists. split; [vm_compute; reflexivity |]. split; [reflexivity | discriminate].
Qed.

(** * Further properties of the routes *)

Ltac split_all :=
  repeat match goal with
         | |- context [if ?c then _ else _] => destruct c eqn:?
         | |- context [match ?c with Some _ => _ | None => _ end] => destruct c eqn:?
         | |- context [match ?c with Absent => _ | Null => _ | Val _ => _ end] => destruct c eqn:?
         end.

(** The outcomes of blog creation. *)
Lemma post_blogs_cases (e : env) (b : body) (w : world) :
  let (r, w') := post_blogs e b w in
  images w' = images w /\ assets w' = assets w /\
  ((status r <> 201 /\ blogs w' = blogs w) \/
   (exists bl, r = mkResponse 201 (PBlog bl)
               /\ Blog.find_by_slug (slug bl) (blogs w) = None
               /\ blogs w' = blogs w ++ [bl])).
Proof.
  unfold post_blogs, handle. run_handler. simpl.
  split_all; simpl; try (split; [reflexivity | split; [reflexivity | left; split; [discriminate | reflexivity]]]).
  all: split; [reflexivity | split; [reflexivity | right; eexists; eauto]].
Qed.

(** Blog creation writes the blog collection only when it answers 201, and
    then appends exactly the returned post, whose slug was not stored; the
    gallery collection and the assets are never touched. *)
Theorem post_blogs_outcomes (e : env) (b : body) (w : world) :
  let (r, w') := post_blogs e b w in
  images w' = images w /\ assets w' = assets w /\
  ((status r <> 201 /\ blogs w' = blogs w) \/
   (exists bl, r = mkResponse 201 (PBlog bl)
               /\ Blog.find_by_slug (slug bl) (blogs w) = None
               /\ blogs w' = blogs w ++ [bl])).
Proof. exact (post_blogs_cases e b w). Qed.

Lemma find_by_slug_none (s : string) (l : list blog) :
  Blog.find_by_slug s l = None -> ~ In s (map slug l).
Proof.
  induction l as [| q l IH]; simpl; [tauto |].
  destruct (String.eqb (slug q) s) eqn:E; [discriminate |].
  apply String.eqb_neq in E. intros H [Hq | Hin]; [congruence | exact (IH H Hin)].
Qed.

Lemma nodup_app_fresh (l : list string) (s : string) :
  NoDup l -> ~ In s l -> NoDup (l ++ [s]).
Proof.
  intros Hl Hs. apply NoDup_app; [exact Hl | repeat constructor; simpl; tauto |].
  intros x Hx [<- | []]. exact (Hs Hx).
Qed.

(** Slugs stay unique under blog creation: whatever the body and however the
    database calls fare, a collection with distinct slugs keeps them. *)
Theorem post_blogs_keeps_slugs_unique (e : env) (b : body) (w : world) :
  NoDup (map slug (blogs w)) ->
  NoDup (map slug (blogs (snd (post_blogs e b w)))).
Proof.
  intros Hnd. pose proof (post_blogs_cases e b w) as H.
  destruct (post_blogs e b w) as [r w']. simpl.
  destruct H as [_ [_ [[_ ->] | [bl [_ [Hfresh ->]]]]]]; [exact Hnd |].
  rewrite map_app. apply nodup_app_fresh; [exact Hnd |].
  now apply find_by_slug_none.
Qed.

(** Slugs stay unique witness. *)
Lemma post_blogs_keeps_slugs_unique_witness :
  NoDup (map slug (blogs world0)) /\
  NoDup (map slug (blogs (snd (post_blogs env0 body_b world0)))).
Proof.
  split; [repeat constructor; simpl; tauto |].
  apply post_blogs_keeps_slugs_unique. repeat constructor; simpl; tauto.
Defined.

Lemma remove_blog_incl (s : string) (l : list blog) (x : string) :
  In x (map slug (remove_blog_by_slug s l)) -> In x (map slug l).
Proof.
  induction l as [| q l IH]; simpl; [tauto |].
  destruct (String.eqb (slug q) s); simpl; [tauto |].
  intros [H | H]; [now left | right; auto].
Qed.

Lemma remove_blog_nodup (s : string) (l : list blog) :
  NoDup (map slug l) -> NoDup (map slug (remove_blog_by_slug s l)).
Proof.
  induction l as [| q l IH]; simpl; [tauto |].
  intros Hnd. inversion Hnd as [| ? ? Hq Hl]; subst.
  destruct (String.eqb (slug q) s); [exact Hl |].
  simpl. constructor; [| exact (IH Hl)].
  intros Hin. apply Hq. exact (remove_blog_incl s l _ Hin).
Qed.

(** Slugs stay unique under deletion by slug. *)
Theorem delete_blog_by_slug_keeps_slugs_unique (e : env) (s : string) (w : world) :
  NoDup (map slug (blogs w)) ->
  NoDup (map slug (blogs (snd (delete_blog_by_slug e s w)))).
Proof.
  intros Hnd. unfold delete_blog_by_slug, blog_findOneAndDelete, handle, bind, throw, reply, ret.
  destruct (delete_fails e); simpl; [exact Hnd |].
  destruct (Blog.find_by_slug s (blogs w)); simpl; now apply remove_blog_nodup.
Qed.

(** Deletion by slug witness. *)
Lemma delete_blog_by_slug_keeps_slugs_unique_witness :
  NoDup (map slug (blogs world0)) /\
  NoDup (map slug (blogs (snd (delete_blog_by_slug env0 "a-post" world0)))).
Proof.
  split; [repeat constructor; simpl; tauto |].
  apply delete_blog_by_slug_keeps_slugs_unique. repeat constructor; simpl; tauto.
Defined.

(** [GET /api/blogs/:slug] answers 200 with the first stored post of that
    slug, or 404 when none has it; it writes nothing. *)
Theorem get_blog_by_slug_lookup (e : env) (s : string) (w : world) :
  find_fails e = false ->
  let (r, w') := get_blog_by_slug e s w in
  blogs w' = blogs w /\ images w' = images w /\ assets w' = assets w /\
  match Blog.find_by_slug s (blogs w) with
  | Some p => r = mkResponse 200 (PBlog p)
  | None => r = msg 404 "Blog not found"
  end.
Proof.
  intros Hf. unfold get_blog_by_slug. run_handler. simpl. rewrite Hf. simpl.
  destruct (Blog.find_by_slug s (blogs w)); repeat split.
Qed.

(** Lookup by slug witness. *)
Lemma get_blog_by_slug_lookup_witness :
  find_fails env0 = false /\
  let (r, w') := get_blog_by_slug env0 "a-post" world0 in
  blogs w' = blogs world0 /\ images w' = images world0 /\ assets w' = assets world0 /\
  match Blog.find_by_slug "a-post" (blogs world0) with
  | Some p => r = mkResponse 200 (PBlog p)
  | None => r = msg 404 "Blog not found"
  end.
Proof. split; [reflexivity |]. apply get_blog_by_slug_lookup. reflexivity. Defined.

(** [DELETE /api/blogs/slug/:slug] answers 404 and changes nothing when no
    post has the slug; otherwise it answers 200 and removes the first post
    with that slug. *)
Theorem delete_blog_by_slug_result (e : env) (s : string) (w : world) :
  delete_fails e = false ->
  let (r, w') := delete_blog_by_slug e s w in
  match Blog.find_by_slug s (blogs w) with
  | Some _ => r = msg 200 "Blog deleted successfully"
              /\ blogs w' = remove_blog_by_slug s (blogs w)
  | None => r = msg 404 "Blog not found" /\ w' = w
  end.
Proof.
  intros Hd. unfold delete_blog_by_slug, blog_findOneAndDelete, handle, bind, throw, reply, ret.
  rewrite Hd. simpl.
  destruct (Blog.find_by_slug s (blogs w)) eqn:E; simpl; [split; reflexivity |].
  split; [reflexivity |].
  assert (Hr : remove_blog_by_slug s (blogs w) = blogs w).
  { clear -E. induction (blogs w) as [| q l IH]; simpl in *; [reflexivity |].
    destruct (String.eqb (slug q) s); [discriminate | now rewrite IH]. }
  unfold Blog.set_blogs. rewrite Hr. now destruct w.
Qed.

(** Deletion by slug witness: the slug is not stored. *)
Lemma delete_blog_by_slug_result_witness :
  delete_fails env0 = false /\
  let (r, w') := delete_blog_by_slug env0 "zz" world0 in
  match Blog.find_by_slug "zz" (blogs world0) with
  | Some _ => r = msg 200 "Blog deleted successfully"
              /\ blogs w' = remove_blog_by_slug "zz" (blogs world0)
  | None => r = msg 404 "Blog not found" /\ w' = world0
  end.
Proof. split; [reflexivity |]. apply delete_blog_by_slug_result. reflexivity. Defined.

Lemma remove_blog_spec (s : string) (l : list blog) :
  NoDup (map slug l) ->
  ~ In s (map slug (remove_blog_by_slug s l))
  /\ (forall p, In p l -> slug p <> s -> In p (remove_blog_by_slug s l)).
Proof.
  induction l as [| q l IH]; simpl; [tauto |].
  intros Hnd. inversion Hnd as [| ? ? Hq Hl]; subst.
  destruct (IH Hl) as [IH1 IH2].
  destruct (String.eqb (slug q) s) eqn:E.
  - apply String.eqb_eq in E. subst s. split; [exact Hq |].
    intros p [<- | Hp] Hne; [congruence | exact Hp].
  - apply String.eqb_neq in E. simpl. split.
    + intros [H | H]; [congruence | exact (IH1 H)].
    + intros p [<- | Hp] Hne; [now left | right; auto].
Qed.

(** With unique slugs, a successful deletion by slug leaves no post with
    that slug and keeps every other post. *)
Theorem delete_blog_by_slug_removes_exactly (e : env) (s : string) (w : world) :
  NoDup (map slug (blogs w)) ->
  let w' := snd (delete_blog_by_slug e s w) in
  fst (delete_blog_by_slug e s w) = msg 200 "Blog deleted successfully" ->
  ~ In s (map slug (blogs w'))
  /\ (forall p, In p (blogs w) -> slug p <> s -> In p (blogs w')).
Proof.
  intros Hnd. unfold delete_blog_by_slug, blog_findOneAndDelete, handle, bind, throw, reply, ret.
  destruct (delete_fails e); simpl; [discriminate |].
  destruct (Blog.find_by_slug s (blogs w)); simpl; [| discriminate].
  intros _. now apply remove_blog_spec.
Qed.

(** Exact removal witness. *)
Lemma delete_blog_by_slug_removes_exactly_witness :
  NoDup (map slug (blogs world0)) /\
  fst (delete_blog_by_slug env0 "a-post" world0) = msg 200 "Blog deleted successfully" /\
  ~ In "a-post" (map slug (blogs (snd (delete_blog_by_slug env0 "a-post" world0))))
  /\ (forall p, In p (blogs world0) -> slug p <> "a-post" ->
                In p (blogs (snd (delete_blog_by_slug env0 "a-post" world0)))).
Proof.
  assert (Hnd : NoDup (map slug (blogs world0))) by (repeat constructor; simpl; tauto).
  split; [exact Hnd | split; [reflexivity |]].
  apply (delete_blog_by_slug_removes_exactly env0 "a-post" world0 Hnd). reflexivity.
Defined.

Lemma find_by_slug_app_fresh (l : list blog) (bl : blog) :
  Blog.find_by_slug (slug bl) l = None ->
  Blog.find_by_slug (slug bl) (l ++ [bl]) = Some bl.
Proof.
  induction l as [| q l IH]; simpl.
  - now rewrite String.eqb_refl.
  - destruct (String.eqb (slug q) (slug bl)); [discriminate | exact IH].
Qed.

Lemma remove_blog_app_fresh (l : list blog) (bl : blog) :
  Blog.find_by_slug (slug bl) l = None ->
  remove_blog_by_slug (slug bl) (l ++ [bl]) = l.
Proof.
  induction l as [| q l IH]; simpl.
  - now rewrite String.eqb_refl.
  - destruct (String.eqb (slug q) (slug bl)); [discriminate | intros H; now rewrite IH].
Qed.

Lemma post_blogs_created (e : env) (b : body) (w : world) (bl : blog) :
  fst (post_blogs e b w) = mkResponse 201 (PBlog bl) ->
  Blog.find_by_slug (slug bl) (blogs w) = None
  /\ blogs (snd (post_blogs e b w)) = blogs w ++ [bl].
Proof.
  pose proof (post_blogs_cases e b w) as H.
  destruct (post_blogs e b w) as [r w']. simpl.
  intros ->. destruct H as [_ [_ [[Hs _] | [bl' [Hr [Hf Hb]]]]]]; [now elim Hs |].
  injection Hr as <-. now split.
Qed.

(** Round trip: a post created with 201 is what a later
    [GET /api/blogs/:slug] of its slug returns. *)
Theorem post_then_get_blog (e e' : env) (b : body) (w : world) (bl : blog) :
  fst (post_blogs e b w) = mkResponse 201 (PBlog bl) ->
  find_fails e' = false ->
  fst (get_blog_by_slug e' (slug bl) (snd (post_blogs e b w))) = mkResponse 200 (PBlog bl).
Proof.
  intros Hc Hf. destruct (post_blogs_created e b w bl Hc) as [Hfresh Hb].
  generalize dependent (snd (post_blogs e b w)). intros w' Hb.
  unfold get_blog_by_slug. run_handler. simpl. rewrite Hf. simpl.
  rewrite Hb, find_by_slug_app_fresh by exact Hfresh. reflexivity.
Qed.

(** Round trip witness. *)
Lemma post_then_get_blog_witness :
  exists bl, fst (post_blogs env0 body_b world0) = mkResponse 201 (PBlog bl) /\
  find_fails env0 = false /\
  fst (get_blog_by_slug env0 (slug bl) (snd (post_blogs env0 body_b world0)))
    = mkResponse 200 (PBlog bl).
Proof.
  eexists. split; [vm_compute; reflexivity |]. split; [reflexivity |].
  apply post_then_get_blog; [vm_compute; reflexivity | reflexivity].
Defined.

(** Round trip: deleting by its slug a post just created with 201 gives back
    the blog collection as it was before the creation. *)
Theorem post_then_delete_blog (e e' : env) (b : body) (w : world) (bl : blog) :
  fst (post_blogs e b w) = mkResponse 201 (PBlog bl) ->
  delete_fails e' = false ->
  blogs (snd (delete_blog_by_slug e' (slug bl) (snd (post_blogs e b w)))) = blogs w.
Proof.
  intros Hc Hd. destruct (post_blogs_created e b w bl Hc) as [Hfresh Hb].
  generalize dependent (snd (post_blogs e b w)). intros w' Hb.
  unfold delete_blog_by_slug, blog_findOneAndDelete, handle, bind, throw, reply, ret.
  rewrite Hd. simpl. rewrite Hb, find_by_slug_app_fresh by exact Hfresh. simpl.
  now apply remove_blog_app_fresh.
Qed.

(** Create-then-delete witness. *)
Lemma post_then_delete_blog_witness :
  exists bl, fst (post_blogs env0 body_b world0) = mkResponse 201 (PBlog bl) /\
  delete_fails env0 = false /\
  blogs (snd (delete_blog_by_slug env0 (slug bl) (snd (post_blogs env0 body_b world0))))
    = blogs world0.
Proof.
  eexists. split; [vm_compute; reflexivity |]. split; [reflexivity |].
  apply post_then_delete_blog; [vm_compute; reflexivity | reflexivity].
Defined.

(** ** Gallery *)

(** [GET /api/gallery] returns every stored image, ordered by [createdAt]
    descending, and writes nothing. *)
Theorem get_gallery_sorted_by_createdAt (e : env) (w : world) :
  find_fails e = false ->
  exists l, get_gallery e w = (mkResponse 200 (PImages l), w)
            /\ Permutation l (images w) /\ Sorted (desc i_createdAt) l.
Proof.
  intros Hf. exists (sort_desc i_createdAt (images w)).
  run_handler. rewrite Hf. split; [reflexivity |].
  split; [apply sort_desc_perm | apply sort_desc_sorted].
Qed.

(** Gallery listing witness. *)
Lemma get_gallery_sorted_by_createdAt_witness :
  find_fails env0 = false /\
  exists l, get_gallery env0 world0 = (mkResponse 200 (PImages l), world0)
            /\ Permutation l (images world0) /\ Sorted (desc i_createdAt) l.
Proof. split; [reflexivity |]. apply get_gallery_sorted_by_createdAt. reflexivity. Defined.

(** [POST /api/gallery] with [src] or [publicId] absent or empty answers 400
    and leaves the world as it was. *)
Theorem post_gallery_missing_data (e : env) (b : body) (w : world) (k : string) :
  k = "src" \/ k = "publicId" ->
  get b k = JUndef \/ get b k = JStr "" ->
  post_gallery e b w = (msg 400 "Missing image data", w).
Proof.
  intros Hin Hv.
  assert (Hk : truthy (get b k) = false) by (destruct Hv as [-> | ->]; reflexivity).
  unfold post_gallery, handle.
  destruct Hin as [<- | <-]; rewrite Hk; simpl negb; rewrite ?orb_true_r; reflexivity.
Qed.

(** Missing image data witness: the example of a body without [publicId]. *)
Lemma post_gallery_missing_data_witness :
  (("publicId" = "src" \/ "publicId" = "publicId") /\
   (get [("src", JStr "https://x/y.jpg")] "publicId" = JUndef
    \/ get [("src", JStr "https://x/y.jpg")] "publicId" = JStr "")) /\
  post_gallery env0 [("src", JStr "https://x/y.jpg")] world0
    = (msg 400 "Missing image data", world0).
Proof.
  split; [split; [right | left]; reflexivity |].
  apply (post_gallery_missing_data env0 _ world0 "publicId"); [right | left]; reflexivity.
Defined.

Lemma new_image_id (e : env) (oid : string) (a b c : jval) (i : image) :
  Gallery.new_image e oid a b c = Some i -> i_id i = oid.
Proof.
  unfold Gallery.new_image.
  destruct (cast_required_string a), (cast_required_string b),
    (cast_string_default "Event Image" c); try discriminate.
  now intros [= <-].
Qed.

(** The outcomes of gallery creation. *)
Lemma post_gallery_cases (e : env) (b : body) (w : world) :
  let (r, w') := post_gallery e b w in
  blogs w' = blogs w /\ assets w' = assets w /\
  ((status r <> 201 /\ images w' = images w) \/
   (exists i, r = mkResponse 201 (PImage i) /\ i_id i = oid_of (next_oid w)
              /\ images w' = images w ++ [i])).
Proof.
  unfold post_gallery, handle. run_handler. simpl.
  split_all; simpl; try (split; [reflexivity | split; [reflexivity | left; split; [discriminate | reflexivity]]]).
  all: split; [reflexivity | split; [reflexivity | right; eexists; split; [reflexivity |]]].
  all: split; [| reflexivity].
  all: match goal with H : Gallery.new_image _ _ _ _ _ = Some _ |- _ =>
         exact (new_image_id _ _ _ _ _ _ H) end.
Qed.

(** Gallery creation writes the gallery collection only when it answers 201,
    and then appends exactly the returned image, under a fresh ObjectId from
    the id counter; blogs and assets are never touched. *)
Theorem post_gallery_outcomes (e : env) (b : body) (w : world) :
  let (r, w') := post_gallery e b w in
  blogs w' = blogs w /\ assets w' = assets w /\
  ((status r <> 201 /\ images w' = images w) \/
   (exists i, r = mkResponse 201 (PImage i) /\ i_id i = oid_of (next_oid w)
              /\ images w' = images w ++ [i])).
Proof. exact (post_gallery_cases e b w). Qed.

(** A gallery image registered without [alt] is answered 201, and the
    returned and stored record has the placeholder "Event Image", the
    [src] and [publicId] strings given and the server time. *)
Theorem post_gallery_default_alt (e : env) (b : body) (w : world) (s p : string) :
  get b "src" = JStr s -> s <> "" -> get b "publicId" = JStr p -> p <> "" ->
  get b "alt" = JUndef -> save_fails e = false ->
  let i := mkImage (oid_of (next_oid w)) s p (Val "Event Image") (now e) in
  fst (post_gallery e b w) = mkResponse 201 (PImage i)
  /\ images (snd (post_gallery e b w)) = images w ++ [i].
Proof.
  intros Hs Hs' Hp Hp' Ha Hsv. apply String.eqb_neq in Hs', Hp'.
  unfold post_gallery. run_handler. rewrite Hs, Hp, Ha, !truthy_str by assumption.
  simpl. rewrite Hsv. unfold Gallery.new_image. rewrite !cast_required_str by assumption.
  split; reflexivity.
Qed.

(** Default [alt] witness. *)
Lemma post_gallery_default_alt_witness :
  let b := [("src", JStr "https://x/z.jpg"); ("publicId", JStr "pic2")] in
  get b "src" = JStr "https://x/z.jpg" /\ get b "publicId" = JStr "pic2" /\
  let i := mkImage (oid_of (next_oid world0)) "https://x/z.jpg" "pic2"
                   (Val "Event Image") (now env0) in
  fst (post_gallery env0 b world0) = mkResponse 201 (PImage i)
  /\ images (snd (post_gallery env0 b world0)) = images world0 ++ [i].
Proof.
  split; [reflexivity | split; [reflexivity |]].
  apply post_gallery_default_alt; first [reflexivity | discriminate].
Defined.

Lemma remove_asset_notin (p : string) (l : list string) :
  NoDup l -> ~ In p (Cloudinary.remove_asset p l).
Proof.
  induction l as [| q l IH]; simpl; [tauto |].
  intros Hnd. inversion Hnd as [| ? ? Hq Hl]; subst.
  destruct (String.eqb q p) eqn:E.
  - apply String.eqb_eq in E. now subst.
  - apply String.eqb_neq in E. simpl. intros [H | H]; [congruence | exact (IH Hl H)].
Qed.

Lemma existsb_false_notin (p : string) (l : list string) :
  existsb (String.eqb p) l = false -> ~ In p l.
Proof.
  intros H Hin. assert (Ht : existsb (String.eqb p) l = true).
  { apply existsb_exists. exists p. split; [exact Hin | apply String.eqb_refl]. }
  congruence.
Qed.

Lemma find_image_remove (oid : string) (l : list image) :
  NoDup (map i_id l) -> Gallery.find_image oid (Gallery.remove_image oid l) = None.
Proof.
  induction l as [| i l IH]; simpl; [reflexivity |].
  intros Hnd. inversion Hnd as [| ? ? Hi Hl]; subst.
  destruct (String.eqb (i_id i) oid) eqn:E.
  - apply String.eqb_eq in E. subst oid. clear IH Hnd Hl.
    induction l as [| j l IH]; simpl; [reflexivity |].
    destruct (String.eqb (i_id j) (i_id i)) eqn:E'.
    + apply String.eqb_eq in E'. elim Hi. now left.
    + apply IH. intros H. apply Hi. now right.
  - simpl. rewrite E. exact (IH Hl).
Qed.

(** A gallery deletion that meets no rejection and no concurrent write
    removes both the record (no record with that id is left when ids are
    distinct) and the asset at Cloudinary (when public ids there are
    distinct); the blog collection is untouched. *)
Theorem delete_gallery_removes_record_and_asset (e : env) (id oid : string)
    (w : world) (img : image) :
  find_fails e = false -> destroy_fails e = false -> delete_fails e = false ->
  (forall l, concurrent e l = l) ->
  cast_objectid id = Some oid ->
  Gallery.find_image oid (images w) = Some img ->
  NoDup (map i_id (images w)) -> NoDup (assets w) ->
  let (r, w') := delete_gallery e id w in
  r = msg 200 "Image deleted successfully"
  /\ Gallery.find_image oid (images w') = None
  /\ ~ In (publicId img) (assets w')
  /\ blogs w' = blogs w.
Proof.
  intros Hf Hd Hdel Hcc Hc Hi Hids Has. run_handler. simpl. rewrite Hf, Hc. simpl.
  rewrite Hi, Hd. simpl.
  destruct (existsb (String.eqb (publicId img)) (assets w)) eqn:Ex; simpl;
    rewrite Hcc, Hdel, ?Hc; simpl;
    (split; [reflexivity | split; [now apply find_image_remove | split; [| reflexivity]]]).
  - now apply remove_asset_notin.
  - now apply existsb_false_notin.
Qed.

(** Record and asset removal witness. *)
Lemma delete_gallery_removes_record_and_asset_witness :
  (forall l, concurrent env0 l = l) /\
  NoDup (map i_id (images world0)) /\ NoDup (assets world0) /\
  let (r, w') := delete_gallery env0 (oid_of 5) world0 in
  r = msg 200 "Image deleted successfully"
  /\ Gallery.find_image (oid_of 5) (images w') = None
  /\ ~ In (publicId img5) (assets w')
  /\ blogs w' = blogs world0.
Proof.
  assert (Hcc : forall l, concurrent env0 l = l) by reflexivity.
  assert (H1 : NoDup (map i_id (images world0))) by (repeat constructor; simpl; tauto).
  assert (H2 : NoDup (assets world0)) by (repeat constructor; simpl; tauto).
  split; [exact Hcc | split; [exact H1 | split; [exact H2 |]]].
  apply (delete_gallery_removes_record_and_asset env0 (oid_of 5) (oid_of 5) world0 img5);
    first [reflexivity | exact Hcc | exact H1 | exact H2 | vm_compute; reflexivity].
Defined.

(** When Cloudinary deletes the asset but the final database delete rejects,
    the response is the generic 500 and the record is kept while its asset
    is gone from Cloudinary. *)
Theorem delete_gallery_record_kept_after_asset_deleted (e : env) (id oid : string)
    (w : world) (img : image) :
  find_fails e = false -> destroy_fails e = false -> delete_fails e = true ->
  (forall l, concurrent e l = l) ->
  cast_objectid id = Some oid ->
  Gallery.find_image oid (images w) = Some img ->
  NoDup (assets w) ->
  let (r, w') := delete_gallery e id w in
  r = msg 500 "Delete failed"
  /\ Gallery.find_image oid (images w') = Some img
  /\ ~ In (publicId img) (assets w').
Proof.
  intros Hf Hd Hdel Hcc Hc Hi Has. run_handler. simpl. rewrite Hf, Hc. simpl.
  rewrite Hi, Hd. simpl.
  destruct (existsb (String.eqb (publicId img)) (assets w)) eqn:Ex; simpl;
    rewrite Hcc, Hdel; simpl; (split; [reflexivity | split; [exact Hi |]]).
  - now apply remove_asset_notin.
  - now apply existsb_false_notin.
Qed.

(** Kept-record witness. *)
Lemma delete_gallery_record_kept_after_asset_deleted_witness :
  let e := mkEnv 1000 false false true false (fun l => l) (fun _ => None) (fun _ => None) in
  NoDup (assets world0) /\
  let (r, w') := delete_gallery e (oid_of 5) world0 in
  r = msg 500 "Delete failed"
  /\ Gallery.find_image (oid_of 5) (images w') = Some img5
  /\ ~ In (publicId img5) (assets w').
Proof.
  assert (H2 : NoDup (assets world0)) by (repeat constructor; simpl; tauto).
  split; [exact H2 |].
  apply (delete_gallery_record_kept_after_asset_deleted
           (mkEnv 1000 false false true false (fun l => l) (fun _ => None) (fun _ => None))
           (oid_of 5) (oid_of 5) world0 img5);
    first [reflexivity | exact H2 | vm_compute; reflexivity].
Defined.

(** Gallery deletion never writes the blog collection, whatever the id
    and however the external calls fare. *)
Theorem delete_gallery_keeps_blogs (e : env) (id : string) (w : world) :
  blogs (snd (delete_gallery e id w)) = blogs w.
Proof.
  run_handler. simpl. split_all; reflexivity.
Qed.

(** ** Cross-origin policy *)

(** The third allow-list entry "https://skybm.in/" ends with a slash and
    so matches only an [Origin] header ending with one. For every origin
    not ending in "/" (as browsers send them, without a path), the
    [Access-Control-Allow-Origin] header is granted exactly to
    http://localhost:5173 and https://skybm.onrender.com. *)
Theorem cors_grants_only_two_slashless_origins (o : string) :
  ~ (exists p, o = (p ++ "/")%string) ->
  (cors_allow_origin (Some o) = Some o <->
   o = "http://localhost:5173" \/ o = "https://skybm.onrender.com")
  /\ (cors_allow_origin (Some o) = Some o \/ cors_allow_origin (Some o) = None).
Proof.
  intros Hns. unfold cors_allow_origin, cors_origins. simpl.
  destruct (String.eqb o "http://localhost:5173") eqn:E1.
  - apply String.eqb_eq in E1. split; [split; [now left | reflexivity] | now left].
  - destruct (String.eqb o "https://skybm.onrender.com") eqn:E2.
    + apply String.eqb_eq in E2. split; [split; [now right | reflexivity] | now left].
    + destruct (String.eqb o "https://skybm.in/") eqn:E3; simpl.
      * apply String.eqb_eq in E3. elim Hns. exists "https://skybm.in". exact E3.
      * apply String.eqb_neq in E1, E2. split; [| now right].
        split; [discriminate | intros [H | H]; contradiction].
Qed.

(** Cross-origin witness: the production site's own origin is refused. *)
Lemma cors_grants_only_two_slashless_origins_witness :
  ~ (exists p, "https://skybm.in" = (p ++ "/")%string) /\
  cors_allow_origin (Some "https://skybm.in") = None /\
  ((cors_allow_origin (Some "https://skybm.in") = Some "https://skybm.in" <->
    "https://skybm.in" = "http://localhost:5173" \/ "https://skybm.in" = "https://skybm.onrender.com")
   /\ (cors_allow_origin (Some "https://skybm.in") = Some "https://skybm.in"
       \/ cors_allow_origin (Some "https://skybm.in") = None)).
Proof.
  assert (Hns : ~ (exists p, "https://skybm.in" = (p ++ "/")%string)).
  { intros [p Hp]. revert Hp.
    do 16 (destruct p as [| ? p]; simpl; [discriminate | intros H; injection H as _ H; revert H]).
    destruct p; discriminate. }
  split; [exact Hns | split; [reflexivity |]].
  exact (cors_grants_only_two_slashless_origins _ Hns).
Defined.

(** ** Query casting *)

(** The slug of the uniqueness lookup is cast like the schema path: a
    non-zero safe integer [n] (at most 2^53 in absolute value) given as [slug] conflicts (409) with a stored
    post whose slug is the decimal string of [n]; nothing is written. *)
Theorem post_blogs_numeric_slug_conflict (e : env) (b : body) (w : world) (p : blog) (n : Z) :
  truthy (get b "title") = true -> truthy (get b "excerpt") = true ->
  truthy (get b "category") = true -> truthy (get b "content") = true ->
  get b "slug" = JNum n -> n <> 0 -> Z.abs n <= 2 ^ 53 ->
  slug p = js_number_to_string n -> In p (blogs w) ->
  find_fails e = false ->
  fst (post_blogs e b w) = msg 409 "Slug already exists"
  /\ blogs (snd (post_blogs e b w)) = blogs w.
Proof.
  intros Ht Hx Hc Hct Hs Hn _ Hp Hin Hf.
  destruct (find_by_slug_in (slug p) (blogs w) p Hin eq_refl) as [q Hq].
  rewrite Hp in Hq.
  assert (Hsl : truthy (JNum n) = true) by (simpl; apply Z.eqb_neq in Hn; now rewrite Hn).
  unfold post_blogs, handle.
  rewrite Ht, Hx, Hc, Hct, Hs, Hsl. simpl negb. cbv iota.
  run_handler. simpl. rewrite Hf. simpl. rewrite Hq. split; reflexivity.
Qed.

(** Numeric slug witness: [slug: 7] against a stored post "7". *)
Lemma post_blogs_numeric_slug_conflict_witness :
  let p := mkBlog (oid_of 9) "E" "F" Absent 900 "7" "C" (Val "Admin") Absent (Val []) "G" 900 900 in
  let w := mkWorld [p] [] [] [] 10 in
  let b := [("title", JStr "A"); ("excerpt", JStr "B"); ("category", JStr "C");
            ("content", JStr "D"); ("slug", JNum 7)] in
  slug p = js_number_to_string 7 /\
  fst (post_blogs env0 b w) = msg 409 "Slug already exists"
  /\ blogs (snd (post_blogs env0 b w)) = blogs w.
Proof.
  split; [reflexivity |].
  apply (post_blogs_numeric_slug_conflict env0 _ _
           (mkBlog (oid_of 9) "E" "F" Absent 900 "7" "C" (Val "Admin") Absent (Val []) "G" 900 900) 7);
    first [reflexivity | discriminate | now left | simpl; lia].
Defined.

(** ** Blog creation defaults *)



